(** * Hotel POS backend: a shallow embedding of [main.py]

    The development follows the source file top to bottom: helpers
    ([oid], [serialize]), the request schemas ([ItemIn], [ItemUpdate],
    [SaleItemIn], [SaleIn]), the inventory handlers ([create_item],
    [update_item], [delete_item]), the receipt allocator
    ([generate_receipt_no]), the sale handlers ([create_sale],
    [list_sales]) and the statistics handler ([stats_top]).

    Modelling conventions.

    - The MongoDB handle [db] is a record of three collections.  A handler
      is a function from the store to an outcome and the store that is left
      behind, so that what an aborted request has already written stays
      visible.
    - Python [float] amounts (prices, totals, payments) are exact rationals
      [Q]; [round(x, 2)] is rounding to the nearest hundredth, ties to
      even, which is what CPython computes on the exact value of [x].
      Python's [==] on amounts is [Qeq].  Non-finite floats are outside
      the model.
    - Python [int] is [Z].
    - [datetime.utcnow()] and the identifier that [insert_one] assigns are
      inputs of a handler: [utcnow k] is the [k]-th reading of the clock
      during the request. *)

From Stdlib Require Import ZArith NArith QArith Qround String Ascii List Lia.
From stdpp Require Import gmap strings list sorting.

Local Open Scope Z_scope.

(** ** Amounts *)

Module Money.

(** Nearest integer, ties to the even neighbour. *)
Definition round_half_even (q : Q) : Z :=
  let f := Qfloor q in
  match (q - inject_Z f ?= 1 # 2)%Q with
  | Lt => f
  | Gt => f + 1
  | Eq => if Z.even f then f else f + 1
  end.

(** [round(x, 2)] *)
Definition round2 (x : Q) : Q := (round_half_even (x * 100) # 100)%Q.

(** [a < b] on amounts *)
Definition Qltb (a b : Q) : bool := negb (Qle_bool b a).

End Money.
Export Money.

(** ** Outcomes of a request *)

(** [HTTPException] is what the handlers raise themselves.
    [RequestValidationError] is raised by the framework before the handler
    body runs, when a declared field or [Query] constraint is violated.
    [Unhandled] is any other exception that escapes the handler. The
    application installs no exception handler of its own, so the framework
    defaults give the status codes. *)
Inductive error : Type :=
  | HTTPException (status_code : Z) (detail : string)
  | RequestValidationError
  | Unhandled (exc : string).


Definition result (A : Type) : Type := (error + A)%type.

(** ** Identifiers *)

(** A [bson.ObjectId] is twelve bytes; it is kept as the number that its
    24 hexadecimal digits denote. *)
Abbreviation ObjectId := N.

Definition hex_digit (c : ascii) : option N :=
  let n := N_of_ascii c in
  if ((48 <=? n) && (n <=? 57))%N then Some (n - 48)%N
  else if ((97 <=? n) && (n <=? 102))%N then Some (n - 87)%N
  else if ((65 <=? n) && (n <=? 70))%N then Some (n - 55)%N
  else None.

Fixpoint hex_value (s : string) (acc : N) : option N :=
  match s with
  | EmptyString => Some acc
  | String c rest =>
      match hex_digit c with
      | Some v => hex_value rest (16 * acc + v)%N
      | None => None
      end
  end.

(** [ObjectId(id_str)] accepts the strings of 24 hexadecimal digits. *)
Definition ObjectId_of_str (id_str : string) : option ObjectId :=
  if (String.length id_str =? 24)%nat then hex_value id_str 0%N else None.

Definition oid (id_str : string) : result ObjectId :=
  match ObjectId_of_str id_str with
  | Some i => inr i
  | None => inl (HTTPException 400 "Invalid id format")
  end.

(** ** Clock readings and text formatting *)

(** The fields of a [datetime] value. *)
Record datetime : Type := {
  year : N; month : N; day : N;
  hour : N; minute : N; second : N; microsecond : N
}.

(** The ranges that the [datetime] type enforces, from year 1000 on (the
    years that [%Y] renders with four digits on every platform). *)
Definition datetime_ok (t : datetime) : Prop :=
  (1000 <= year t <= 9999 /\ 1 <= month t <= 12 /\ 1 <= day t <= 31 /\
   hour t <= 23 /\ minute t <= 59 /\ second t <= 59 /\
   microsecond t <= 999999)%N.

(** Chronological order is the order of this key. *)
Definition dt_key (t : datetime) : N :=
  ((((((year t * 100 + month t) * 100 + day t) * 100 + hour t) * 100
      + minute t) * 100 + second t) * 1000000 + microsecond t)%N.

Definition digit_char (d : N) : ascii := ascii_of_N (48 + d).

(** Decimal digits, least significant first. *)
Fixpoint dec_digits (fuel : nat) (n : N) : list N :=
  match fuel with
  | O => []
  | S fuel' =>
      (n mod 10)%N ::
      (if (n / 10 =? 0)%N then [] else dec_digits fuel' (n / 10)%N)
  end.

(** [str(n)] for a natural number. *)
Definition str_N (n : N) : string :=
  string_of_list_ascii
    (rev (map digit_char (dec_digits (S (N.to_nat (N.log2 n))) n))).

Fixpoint zeros (k : nat) : string :=
  match k with
  | O => EmptyString
  | S k' => String "0" (zeros k')
  end.

(** Left padding with ["0"] up to [width] characters. *)
Definition zfill (width : nat) (s : string) : string :=
  zeros (width - String.length s) +:+ s.

(** The format specification [0<width>d]: the sign counts in the width. *)
Definition format_0d (width : nat) (num : Z) : string :=
  if num <? 0 then String "-" (zfill (width - 1) (str_N (Z.to_N (- num))))
  else zfill width (str_N (Z.to_N num)).

(** [t.strftime('%Y%m%d%H%M%S')] *)
Definition strftime_YmdHMS (t : datetime) : string :=
  zfill 4 (str_N (year t)) +:+ zfill 2 (str_N (month t)) +:+
  zfill 2 (str_N (day t)) +:+ zfill 2 (str_N (hour t)) +:+
  zfill 2 (str_N (minute t)) +:+ zfill 2 (str_N (second t)).

(** ** Documents and the store *)

(** A document of the [item] collection; its [_id] is the key under which
    the collection holds it.  Every item document is written by
    [create_item], so all six fields and both timestamps are present. *)
Record ItemDoc : Type := {
  item_name : string;
  item_price : Q;
  item_sku : option string;
  item_stock : Z;
  item_category : option string;
  item_is_active : bool;
  item_created_at : datetime;
  item_updated_at : datetime
}.

(** An entry of a sale's [items] list. *)
Record LineItem : Type := {
  li_item_id : ObjectId;
  li_name : string;
  li_price : Q;
  li_quantity : Z;
  li_line_total : Q
}.

(** A document of the [sale] collection. *)
Record SaleDoc : Type := {
  sale_id : ObjectId;
  sale_items : list LineItem;
  sale_cashier : option string;
  sale_note : option string;
  sale_subtotal : Q;
  sale_tax : Q;
  sale_total : Q;
  sale_paid : Q;
  sale_change : Q;
  sale_receipt_no : string;
  sale_created_at : datetime
}.

(** The three collections behind [db]: [item] by [_id], [sale] in
    insertion order, and [counters] as the [seq] field by [_id]. *)
Record Db : Type := {
  item : gmap N ItemDoc;
  sale : list SaleDoc;
  counters : gmap string Z
}.

Definition empty_db : Db := {| item := ∅; sale := []; counters := ∅ |}.

Definition with_item (d : Db) (m : gmap N ItemDoc) : Db :=
  {| item := m; sale := sale d; counters := counters d |}.

Definition with_sale (d : Db) (l : list SaleDoc) : Db :=
  {| item := item d; sale := l; counters := counters d |}.

Definition with_counters (d : Db) (c : gmap string Z) : Db :=
  {| item := item d; sale := sale d; counters := c |}.

(** A handler runs against the store and leaves a store behind, also when
    it raises. *)
Definition handler (A : Type) : Type := Db -> result A * Db.

(** The guard [if db is None: raise HTTPException(500, ...)] that opens
    the handlers. *)
Definition guard_db {A : Type} (db : option Db) (body : handler A)
  : result A * option Db :=
  match db with
  | None => (inl (HTTPException 500 "Database not available"), None)
  | Some d => let (r, d') := body d in (r, Some d')
  end.

(** [serialize] re-renders the [ObjectId] values of a document as strings
    and passes [None] through; on typed documents it changes nothing. *)
Definition serialize {A : Type} (doc : A) : A := doc.

(** *** Store primitives *)

(** [db["item"].find_one({"_id": i, "is_active": True})] *)
Definition find_one_active (coll : gmap N ItemDoc) (i : ObjectId)
  : option ItemDoc :=
  match coll !! i with
  | Some doc => if item_is_active doc then Some doc else None
  | None => None
  end.

(** [insert_one] on [item]: the [_id] index refuses a duplicate. *)
Definition insert_one_item (i : ObjectId) (doc : ItemDoc)
    (coll : gmap N ItemDoc) : option (gmap N ItemDoc) :=
  match coll !! i with
  | Some _ => None
  | None => Some (<[i := doc]> coll)
  end.

(** [insert_one] on [sale]; [None] is the duplicate-key error, which
    [create_sale] catches and reports with status 500. *)
Definition insert_one_sale (doc : SaleDoc) (coll : list SaleDoc)
  : option (list SaleDoc) :=
  if existsb (fun s => (sale_id s =? sale_id doc)%N) coll then None
  else Some (coll ++ [doc]).

(** [db["sale"].find_one({"_id": i})] *)
Definition find_one_sale (i : ObjectId) (coll : list SaleDoc)
  : option SaleDoc :=
  find (fun s => (sale_id s =? i)%N) coll.

(** [find_one_and_update({"_id": key}, {"$inc": {"seq": 1}}, upsert=True,
    return_document=True)]: the document after the update; a missing
    document is created with [seq = 1]. *)
Definition find_one_and_update_inc (key : string) (coll : gmap string Z)
  : Z * gmap string Z :=
  let seq := default 0 (coll !! key) + 1 in
  (seq, <[key := seq]> coll).

(** [{"$inc": {"stock": -q}, "$set": {"updated_at": now}}] *)
Definition inc_stock (q : Z) (now : datetime) (doc : ItemDoc) : ItemDoc :=
  {| item_name := item_name doc;
     item_price := item_price doc;
     item_sku := item_sku doc;
     item_stock := item_stock doc + - q;
     item_category := item_category doc;
     item_is_active := item_is_active doc;
     item_created_at := item_created_at doc;
     item_updated_at := now |}.

(** [update_one({"_id": i}, update)]: the matched count and the
    collection afterwards. *)
Definition update_one (i : ObjectId) (update : ItemDoc -> ItemDoc)
    (coll : gmap N ItemDoc) : nat * gmap N ItemDoc :=
  match coll !! i with
  | Some doc => (1%nat, <[i := update doc]> coll)
  | None => (0%nat, coll)
  end.

(** ** Schemas for requests *)

(** The JSON body of [POST /api/items], field by field; [None] is an
    absent field. *)
Record ItemIn_body : Type := {
  body_name : option string;
  body_price : option Q;
  body_sku : option string;
  body_stock : option Z;
  body_category : option string;
  body_is_active : option bool
}.

Record ItemIn : Type := {
  in_name : string;
  in_price : Q;
  in_sku : option string;
  in_stock : Z;
  in_category : option string;
  in_is_active : bool
}.

(** Validation against the declaration of [ItemIn]: [name] and [price]
    are required, the other fields have defaults, and no field carries a
    range constraint. *)
Definition ItemIn_validate (body : ItemIn_body) : result ItemIn :=
  match body_name body, body_price body with
  | Some name, Some price =>
      inr {| in_name := name;
             in_price := price;
             in_sku := body_sku body;
             in_stock := default 0 (body_stock body);
             in_category := body_category body;
             in_is_active := default true (body_is_active body) |}
  | _, _ => inl RequestValidationError
  end.

(** Every field of [ItemUpdate] is optional with default [None]. *)
Record ItemUpdate : Type := {
  upd_name : option string;
  upd_price : option Q;
  upd_sku : option string;
  upd_stock : option Z;
  upd_category : option string;
  upd_is_active : option bool
}.

Record SaleItemIn : Type := {
  item_id : string;
  quantity : Z
}.

Record SaleIn : Type := {
  items : list SaleItemIn;
  cashier : option string;
  note : option string;
  paid : Q
}.

(** ** Inventory endpoints *)

(** [POST /api/items] *)
Definition create_item (utcnow : nat -> datetime) (new_id : ObjectId)
    (body : ItemIn_body) (db : option Db)
  : result (option (ObjectId * ItemDoc)) * option Db :=
  match ItemIn_validate body with
  | inl e => (inl e, db)
  | inr payload =>
      guard_db db (fun d =>
        let doc := {| item_name := in_name payload;
                      item_price := in_price payload;
                      item_sku := in_sku payload;
                      item_stock := in_stock payload;
                      item_category := in_category payload;
                      item_is_active := in_is_active payload;
                      item_created_at := utcnow 0%nat;
                      item_updated_at := utcnow 1%nat |} in
        match insert_one_item new_id doc (item d) with
        | None => (inl (Unhandled "DuplicateKeyError"), d)
        | Some coll =>
            let d' := with_item d coll in
            (inr (serialize (pair new_id <$> item d' !! new_id)), d')
        end)
  end.

(** [{"$set": updates}] where [updates] holds the fields of the payload
    that are not [None], and [updated_at]. *)
Definition set_updates (payload : ItemUpdate) (updated_at : datetime)
    (doc : ItemDoc) : ItemDoc :=
  {| item_name := default (item_name doc) (upd_name payload);
     item_price := default (item_price doc) (upd_price payload);
     item_sku :=
       match upd_sku payload with Some v => Some v | None => item_sku doc end;
     item_stock := default (item_stock doc) (upd_stock payload);
     item_category :=
       match upd_category payload with
       | Some v => Some v
       | None => item_category doc
       end;
     item_is_active := default (item_is_active doc) (upd_is_active payload);
     item_created_at := item_created_at doc;
     item_updated_at := updated_at |}.

(** [PUT /api/items/{item_id}] *)
Definition update_item (utcnow : nat -> datetime) (item_id : string)
    (payload : ItemUpdate) (db : option Db)
  : result (option (ObjectId * ItemDoc)) * option Db :=
  guard_db db (fun d =>
    let updates := set_updates payload (utcnow 0%nat) in
    match oid item_id with
    | inl e => (inl e, d)
    | inr i =>
        let (matched_count, coll) := update_one i updates (item d) in
        let d' := with_item d coll in
        if (matched_count =? 0)%nat
        then (inl (HTTPException 404 "Item not found"), d')
        else (inr (serialize (pair i <$> item d' !! i)), d')
    end).

(** [delete_one({"_id": i})]: the deleted count and the collection
    afterwards. *)
Definition delete_one (i : ObjectId) (coll : gmap N ItemDoc)
  : nat * gmap N ItemDoc :=
  match coll !! i with
  | Some _ => (1%nat, delete i coll)
  | None => (0%nat, coll)
  end.

(** [DELETE /api/items/{item_id}]; [true] stands for [{"ok": True}]. *)
Definition delete_item (item_id : string) (db : option Db)
  : result bool * option Db :=
  guard_db db (fun d =>
    match oid item_id with
    | inl e => (inl e, d)
    | inr i =>
        let (deleted_count, coll) := delete_one i (item d) in
        let d' := with_item d coll in
        if (deleted_count =? 0)%nat
        then (inl (HTTPException 404 "Item not found"), d')
        else (inr true, d')
    end).

(** ** Sales endpoints *)

(** The receipt counter's value after the increment: the [num] of
    [generate_receipt_no]. *)
Definition next_receipt_seq : handler Z :=
  fun d =>
    let (seq, coll) := find_one_and_update_inc "receipt" (counters d) in
    (inr seq, with_counters d coll).

Definition generate_receipt_no (now : datetime) : handler string :=
  fun d =>
    let ts := strftime_YmdHMS now in
    match next_receipt_seq d with
    | (inr num, d') => (inr ("R" +:+ ts +:+ "-" +:+ format_0d 4 num), d')
    | (inl e, d') => (inl e, d')
    end.

(** The loop of [create_sale] over the request's lines, with its two
    accumulators. It only reads the store. *)
Fixpoint collect_lines (d : Db) (lines : list SaleItemIn)
    (line_items : list LineItem) (subtotal : Q)
  : result (list LineItem * Q) :=
  match lines with
  | [] => inr (line_items, subtotal)
  | it :: rest =>
      match oid (item_id it) with
      | inl e => inl e
      | inr i =>
          match find_one_active (item d) i with
          | None =>
              inl (HTTPException 400 ("Item not available: " +:+ item_id it))
          | Some item_doc =>
              if item_stock item_doc <? quantity it
              then inl (HTTPException 400
                          ("Insufficient stock for " +:+ item_name item_doc))
              else
                let price := item_price item_doc in
                let line_total := (price * inject_Z (quantity it))%Q in
                collect_lines d rest
                  (line_items ++
                     [{| li_item_id := i;
                         li_name := item_name item_doc;
                         li_price := price;
                         li_quantity := quantity it;
                         li_line_total := line_total |}])
                  (subtotal + line_total)%Q
          end
      end
  end.

(** The loop that decrements the stock of every line item; [k] counts the
    clock readings taken so far. *)
Fixpoint decrement_stock (utcnow : nat -> datetime) (k : nat)
    (line_items : list LineItem) (coll : gmap N ItemDoc) : gmap N ItemDoc :=
  match line_items with
  | [] => coll
  | li :: rest =>
      decrement_stock utcnow (S k) rest
        (snd (update_one (li_item_id li)
                (inc_stock (li_quantity li) (utcnow k)) coll))
  end.

(** [POST /api/sales] *)
Definition create_sale (utcnow : nat -> datetime) (new_id : ObjectId)
    (payload : SaleIn) (db : option Db)
  : result (option SaleDoc) * option Db :=
  guard_db db (fun d =>
    match items payload with
    | [] => (inl (HTTPException 400 "No items in sale"), d)
    | _ :: _ =>
        match collect_lines d (items payload) [] 0%Q with
        | inl e => (inl e, d)
        | inr (line_items, subtotal) =>
            let tax := round2 (subtotal * 0) in
            let total := round2 (subtotal + tax) in
            if Qltb (paid payload) total
            then (inl (HTTPException 400 "Paid amount is less than total"), d)
            else
              let change := round2 (paid payload - total) in
              match generate_receipt_no (utcnow 0%nat) d with
              | (inl e, d1) => (inl e, d1)
              | (inr receipt_no, d1) =>
                  let sale_doc :=
                    {| sale_id := new_id;
                       sale_items := line_items;
                       sale_cashier := cashier payload;
                       sale_note := note payload;
                       sale_subtotal := round2 subtotal;
                       sale_tax := tax;
                       sale_total := total;
                       sale_paid := paid payload;
                       sale_change := change;
                       sale_receipt_no := receipt_no;
                       sale_created_at := utcnow 1%nat |} in
                  match insert_one_sale sale_doc (sale d1) with
                  | None =>
                      (inl (HTTPException 500 "DuplicateKeyError"), d1)
                  | Some coll =>
                      let d2 := with_sale d1 coll in
                      let d3 :=
                        with_item d2
                          (decrement_stock utcnow 2 line_items (item d2)) in
                      let saved := find_one_sale new_id (sale d3) in
                      (inr (serialize saved), d3)
                  end
              end
        end
    end).

(** [Query(50, ge=1, le=500)]: the default, and the declared bounds. *)
Definition Query_limit (limit : option Z) : result Z :=
  match limit with
  | None => inr 50
  | Some l =>
      if (1 <=? l) && (l <=? 500) then inr l else inl RequestValidationError
  end.

(** Newest first. *)
Definition created_desc (a b : SaleDoc) : Prop :=
  (dt_key (sale_created_at b) <= dt_key (sale_created_at a))%N.

#[export] Instance created_desc_dec : RelDecision created_desc :=
  fun a b => decide (dt_key (sale_created_at b) <= dt_key (sale_created_at a))%N.

(** The filter [{"created_at": {"$gte": lo, "$lte": hi}}], either bound
    optional. *)
Definition in_range (lo hi : option datetime) (t : datetime) : bool :=
  match lo with Some a => (dt_key a <=? dt_key t)%N | None => true end &&
  match hi with Some b => (dt_key t <=? dt_key b)%N | None => true end.

(** Entries of the aggregation of [stats_top], and its answer. *)
Record TopEntry : Type := {
  top_item_id : ObjectId;
  top_name : option string;
  top_quantity : Z;
  top_price : Q;
  top_category : option string
}.

Record TopStats : Type := {
  most_selling : option TopEntry;
  least_selling : option TopEntry
}.

(** Largest quantity first. *)
Definition quantity_desc (a b : ObjectId * Z) : Prop := b.2 <= a.2.

#[export] Instance quantity_desc_dec : RelDecision quantity_desc :=
  fun a b => decide (b.2 <= a.2).

(** [$unwind] the line items and [$group] them by [item_id], summing
    [quantity]. *)
Definition group_quantities (sales : list SaleDoc) : gmap N Z :=
  foldl (fun acc li =>
           <[li_item_id li :=
               default 0 (acc !! li_item_id li) + li_quantity li]> acc)
        ∅ (concat (map sale_items sales)).

Section DateRange.

(** [datetime.fromisoformat]; [None] stands for the [ValueError] it
    raises on text it cannot parse. *)
Variable fromisoformat : string -> option datetime.

(** [if bound: dr[...] = datetime.fromisoformat(bound)]: an absent or
    empty parameter is skipped. *)
Definition parse_bound (bound : option string) : result (option datetime) :=
  match bound with
  | Some (String c rest) =>
      match fromisoformat (String c rest) with
      | Some t => inr (Some t)
      | None => inl (Unhandled "ValueError")
      end
  | _ => inr None
  end.

(** The date filter that [list_sales] and [stats_top] both build, [start]
    first. *)
Definition date_range (start end_ : option string)
  : result (option datetime * option datetime) :=
  match parse_bound start with
  | inl e => inl e
  | inr lo =>
      match parse_bound end_ with
      | inl e => inl e
      | inr hi => inr (lo, hi)
      end
  end.

(** [GET /api/sales] *)
Definition list_sales (limit : option Z) (start end_ : option string)
    (db : option Db) : result (list SaleDoc) * option Db :=
  match Query_limit limit with
  | inl e => (inl e, db)
  | inr limit =>
      guard_db db (fun d =>
        match date_range start end_ with
        | inl e => (inl e, d)
        | inr (lo, hi) =>
            let found :=
              List.filter (fun s => in_range lo hi (sale_created_at s))
                (sale d) in
            let sales :=
              take (Z.to_nat limit) (merge_sort created_desc found) in
            (inr (map serialize sales), d)
        end)
  end.

(** [build(entry)] of [stats_top]: the entry joined with its item, when
    the item still exists. *)
Definition build (items_map : gmap N ItemDoc) (entry : ObjectId * Z)
  : TopEntry :=
  let it := items_map !! entry.1 in
  {| top_item_id := entry.1;
     top_name := item_name <$> it;
     top_quantity := entry.2;
     top_price := default 0%Q (item_price <$> it);
     top_category := it ≫= item_category |}.

(** [GET /api/stats/top] *)
Definition stats_top (start end_ : option string) (db : option Db)
  : result TopStats * option Db :=
  guard_db db (fun d =>
    match date_range start end_ with
    | inl e => (inl e, d)
    | inr (lo, hi) =>
        let matched :=
          List.filter (fun s => in_range lo hi (sale_created_at s))
            (sale d) in
        let agg :=
          merge_sort quantity_desc (map_to_list (group_quantities matched)) in
        match agg with
        | [] => (inr {| most_selling := None; least_selling := None |}, d)
        | top :: _ =>
            let ids := map fst agg in
            let items_map := filter (fun kv => kv.1 ∈ ids) (item d) in
            let bottom := List.last agg top in
            (inr {| most_selling := Some (build items_map top);
                    least_selling := Some (build items_map bottom) |}, d)
        end
    end).

End DateRange.

(** [GET /api/receipt/{receipt_no}]; the handler does not guard against
    a missing store, so subscripting [None] raises. *)
Definition get_receipt (receipt_no : string) (db : option Db)
  : result SaleDoc * option Db :=
  match db with
  | None => (inl (Unhandled "TypeError"), None)
  | Some d =>
      match find (fun s => String.eqb (sale_receipt_no s) receipt_no)
                 (sale d) with
      | None => (inl (HTTPException 404 "Receipt not found"), Some d)
      | Some s => (inr (serialize s), Some d)
      end
  end.

(** ** Vocabulary of the properties *)







Definition is_digit (c : ascii) : bool :=
  ((48 <=? N_of_ascii c) && (N_of_ascii c <=? 57))%N.

Fixpoint all_digits (s : string) : bool :=
  match s with
  | EmptyString => true
  | String c rest => is_digit c && all_digits rest
  end.

(** The number that a string of decimal digits denotes. *)
Fixpoint decimal_value (s : string) (acc : N) : N :=
  match s with
  | EmptyString => acc
  | String c rest => decimal_value rest (10 * acc + (N_of_ascii c - 48))%N
  end.

(** The receipt format with nothing between the timestamp and a sequence
    field of exactly four digits. *)
Definition receipt_ts_seq4 (r : string) : Prop :=
  exists ts sq,
    r = "R" +:+ ts +:+ sq /\
    String.length ts = 14%nat /\ all_digits ts = true /\
    String.length sq = 4%nat /\ all_digits sq = true.


(** The sale document that [create_sale] assembles. *)
Definition assembled (utcnow : nat -> datetime) (new_id : N) (payload : SaleIn)
    (d : Db) (lis : list LineItem) (sub : Q) : SaleDoc :=
  {| sale_id := new_id;
     sale_items := lis;
     sale_cashier := cashier payload;
     sale_note := note payload;
     sale_subtotal := round2 sub;
     sale_tax := round2 (sub * 0);
     sale_total := round2 (sub + round2 (sub * 0));
     sale_paid := paid payload;
     sale_change := round2 (paid payload - round2 (sub + round2 (sub * 0)));
     sale_receipt_no :=
       "R" +:+ strftime_YmdHMS (utcnow 0%nat) +:+ "-" +:+
       format_0d 4 (default 0 (counters d !! "receipt") + 1);
     sale_created_at := utcnow 1%nat |}.



(** The digits of [dec_digits], read back least significant first. *)
Fixpoint lsb_value (ds : list N) : N :=
  match ds with
  | [] => 0
  | dg :: rest => dg + 10 * lsb_value rest
  end%N.

(** The value of the receipt counter: 0 while its document is missing. *)
Definition counter_value (d : Db) : Z := default 0 (counters d !! "receipt").

(** What [create_item] stores for a validated payload. *)
Definition item_doc_of (utcnow : nat -> datetime) (payload : ItemIn) : ItemDoc :=
  {| item_name := in_name payload;
     item_price := in_price payload;
     item_sku := in_sku payload;
     item_stock := in_stock payload;
     item_category := in_category payload;
     item_is_active := in_is_active payload;
     item_created_at := utcnow 0%nat;
     item_updated_at := utcnow 1%nat |}.

(** A stored sale passes the date filter. *)
Definition matches (lo hi : option datetime) (s : SaleDoc) : bool :=
  in_range lo hi (sale_created_at s).


(** The requests that write to the store. *)
Inductive request : Type :=
  | POST_items (utcnow : nat -> datetime) (new_id : ObjectId) (body : ItemIn_body)
  | PUT_items (utcnow : nat -> datetime) (item_id : string) (payload : ItemUpdate)
  | DELETE_items (item_id : string)
  | POST_sales (utcnow : nat -> datetime) (new_id : ObjectId) (payload : SaleIn).

(** The store that a request leaves behind, whatever it answers. *)
Definition serve (req : request) (d : Db) : Db :=
  default d
    match req with
    | POST_items utcnow new_id body => (create_item utcnow new_id body (Some d)).2
    | PUT_items utcnow item_id payload => (update_item utcnow item_id payload (Some d)).2
    | DELETE_items item_id => (delete_item item_id (Some d)).2
    | POST_sales utcnow new_id payload => (create_sale utcnow new_id payload (Some d)).2
    end.

(** The stores that a history of requests produces from the empty one. *)
Definition run (history : list request) : Db :=
  foldl (fun d req => serve req d) empty_db history.




(** Two stores hold the same documents. *)
Definition same_store (d d' : Db) : Prop :=
  item d' = item d /\ sale d' = sale d /\ counters d' = counters d.

(** The quantity that the line items order of item [i], all lines
    together. *)
Definition ordered (i : ObjectId) (line_items : list LineItem) : Z :=
  foldr (fun li acc =>
           if (li_item_id li =? i)%N then li_quantity li + acc else acc)
        0 line_items.

(** The fields of an item that a sale leaves alone. *)
Definition item_static (doc : ItemDoc)
  : string * Q * option string * option string * bool * datetime :=
  (item_name doc, item_price doc, item_sku doc, item_category doc,
   item_is_active doc, item_created_at doc).


(** [s[n:]] *)
Fixpoint string_drop (n : nat) (s : string) : string :=
  match n, s with
  | O, _ => s
  | S n', String _ rest => string_drop n' rest
  | S _, EmptyString => EmptyString
  end.

(** The sequence value that a receipt number carries after its sixteen
    leading characters. *)
Definition receipt_seq (receipt_no : string) : Z :=
  Z.of_N (decimal_value (string_drop 16 receipt_no) 0).

(** The clock reading that a sale request stamps its receipt with is a
    [datetime]. *)
Definition clock_ok (req : request) : Prop :=
  match req with
  | POST_sales utcnow _ _ => datetime_ok (utcnow 0%nat)
  | _ => True
  end.

(** The receipts of a store are numbered in increasing order, up to the
    counter. *)
Definition receipts_inv (d : Db) : Prop :=
  0 <= counter_value d /\
  Forall (fun s => receipt_seq (sale_receipt_no s) <= counter_value d)
    (sale d) /\
  StronglySorted Z.lt (map (fun s => receipt_seq (sale_receipt_no s)) (sale d)).

(** Some line item names item [i]. *)
Definition mentions (i : ObjectId) (line_items : list LineItem) : bool :=
  existsb (fun li => (li_item_id li =? i)%N) line_items.

(** The line items of the sales that pass the date filter, [$unwind]
    order. *)
Definition matched_lines (lo hi : option datetime) (d : Db) : list LineItem :=
  concat (map sale_items (List.filter (matches lo hi) (sale d))).

(** ** Sample data *)

Definition t0 : datetime :=
  {| year := 2024; month := 1; day := 2;
     hour := 3; minute := 4; second := 5; microsecond := 0 |}.

(** A clock that advances one second per reading, from [t0]. *)
Definition sample_utcnow (k : nat) : datetime :=
  {| year := 2024; month := 1; day := 2;
     hour := 3; minute := 4; second := 5 + N.of_nat k; microsecond := 0 |}.

Definition coffee_id : string := "000000000000000000000001".
Definition tea_id : string := "000000000000000000000002".

Definition coffee : ItemDoc :=
  {| item_name := "Coffee"; item_price := 3; item_sku := None;
     item_stock := 10; item_category := Some "Drinks";
     item_is_active := true;
     item_created_at := t0; item_updated_at := t0 |}.

(** An item withdrawn from sale, with stock left. *)
Definition tea : ItemDoc :=
  {| item_name := "Tea"; item_price := 2; item_sku := None;
     item_stock := 5; item_category := Some "Drinks";
     item_is_active := false;
     item_created_at := t0; item_updated_at := t0 |}.

(** An item priced at a third of a cent above 33 cents. *)
Definition syrup : ItemDoc :=
  {| item_name := "Syrup"; item_price := 333 # 1000; item_sku := None;
     item_stock := 1; item_category := None;
     item_is_active := true;
     item_created_at := t0; item_updated_at := t0 |}.

Definition sample_db : Db :=
  {| item := <[1%N := coffee]> (<[2%N := tea]> (<[3%N := syrup]> ∅));
     sale := [];
     counters := ∅ |}.

Definition line (id : string) (q : Z) : SaleItemIn :=
  {| item_id := id; quantity := q |}.

Definition order (lines : list SaleItemIn) (p : Q) : SaleIn :=
  {| items := lines; cashier := None; note := None; paid := p |}.

(** A stand-in for [datetime.fromisoformat] in the examples: it reads the
    plain calendar form [YYYY-MM-DD] and nothing else. *)
Definition fromisoformat_date (s : string) : option datetime :=
  let field (from len : nat) : option N :=
    let f := substring from len s in
    if all_digits f then Some (decimal_value f 0) else None in
  if (String.length s =? 10)%nat then
    match field 0%nat 4%nat, get 4 s, field 5%nat 2%nat, get 7 s,
          field 8%nat 2%nat with
    | Some y, Some "-"%char, Some m, Some "-"%char, Some dd =>
        if ((1 <=? y) && (1 <=? m) && (m <=? 12) && (1 <=? dd) && (dd <=? 31))%N
        then Some {| year := y; month := m; day := dd;
                     hour := 0; minute := 0; second := 0; microsecond := 0 |}
        else None
    | _, _, _, _, _ => None
    end
  else None.

Definition coffee_order : SaleIn := order [line coffee_id 2] 10.

Definition cola_body : ItemIn_body :=
  {| body_name := Some "Cola"; body_price := Some (-1)%Q;
     body_sku := None; body_stock := None; body_category := None;
     body_is_active := None |}.

Definition reprice_coffee : ItemUpdate :=
  {| upd_name := None; upd_price := Some 4%Q; upd_sku := None;
     upd_stock := None; upd_category := None; upd_is_active := None |}.



Definition sample_history : list request :=
  [POST_items sample_utcnow 1%N
     {| body_name := Some "Coffee"; body_price := Some 3%Q;
        body_sku := None; body_stock := Some 10; body_category := None;
        body_is_active := None |};
   POST_sales sample_utcnow 7%N coffee_order;
   POST_sales sample_utcnow 8%N coffee_order].

Definition sample_sold_db : Db :=
  {| item := <[1%N := coffee]> (<[3%N := syrup]> ∅);
     sale :=
       [{| sale_id := 7%N;
           sale_items :=
             [{| li_item_id := 1%N; li_name := "Coffee"; li_price := 3;
                 li_quantity := 2; li_line_total := 6 |};
              {| li_item_id := 4%N; li_name := "Scone"; li_price := 2;
                 li_quantity := 1; li_line_total := 2 |}];
           sale_cashier := None; sale_note := None;
           sale_subtotal := 8; sale_tax := 0; sale_total := 8;
           sale_paid := 10; sale_change := 2;
           sale_receipt_no := "R20240102030405-0001";
           sale_created_at := t0 |};
        {| sale_id := 8%N;
           sale_items :=
             [{| li_item_id := 1%N; li_name := "Coffee"; li_price := 3;
                 li_quantity := 3; li_line_total := 9 |}];
           sale_cashier := None; sale_note := None;
           sale_subtotal := 9; sale_tax := 0; sale_total := 9;
           sale_paid := 9; sale_change := 0;
           sale_receipt_no := "R20240102030406-0002";
           sale_created_at := sample_utcnow 1 |}];
     counters := {["receipt" := 2]} |}.

(** * Properties *)

(** ** Rounding *)









Lemma Qltb_ge (a b : Q) : Qltb a b = false <-> (b <= a)%Q.
Proof.
  unfold Qltb. rewrite negb_false_iff. apply Qle_bool_iff.
Qed.

Section Loop.
Context (d : Db).







End Loop.

Lemma find_one_sale_app_new (doc : SaleDoc) (coll : list SaleDoc) :
  existsb (fun s => (sale_id s =? sale_id doc)%N) coll = false ->
  find_one_sale (sale_id doc) (coll ++ [doc]) = Some doc.
Proof.
  unfold find_one_sale. induction coll as [|s coll IH]; simpl; intros H.
  - now rewrite N.eqb_refl.
  - apply orb_false_iff in H as [H1 H2]. rewrite H1. now apply IH.
Qed.

Lemma insert_one_sale_Some (doc : SaleDoc) (coll coll' : list SaleDoc) :
  insert_one_sale doc coll = Some coll' ->
  coll' = coll ++ [doc] /\ find_one_sale (sale_id doc) coll' = Some doc.
Proof.
  unfold insert_one_sale.
  destruct (existsb _ coll) eqn:E; [discriminate|].
  intros [= <-]. split; [reflexivity|]. now apply find_one_sale_app_new.
Qed.

Lemma create_sale_inr utcnow new_id payload d r d' :
  create_sale utcnow new_id payload (Some d) = (inr r, d') ->
  exists lis sub,
    items payload <> [] /\
    collect_lines d (items payload) [] 0%Q = inr (lis, sub) /\
    (round2 (sub + round2 (sub * 0)) <= paid payload)%Q /\
    r = Some (assembled utcnow new_id payload d lis sub) /\
    d' = Some {| item := decrement_stock utcnow 2 lis (item d);
                 sale := sale d ++ [assembled utcnow new_id payload d lis sub];
                 counters := <["receipt" := default 0 (counters d !! "receipt") + 1]>
                               (counters d) |}.
Proof.
  unfold create_sale, guard_db.
  destruct (items payload) as [|it0 rest] eqn:Ei; [intros [=]|].
  destruct (collect_lines d (it0 :: rest) [] 0%Q) as [e|[lis sub]] eqn:Ec;
    [intros [=]|].
  destruct (Qltb (paid payload) _) eqn:Ep; [intros [=]|].
  unfold generate_receipt_no, next_receipt_seq, find_one_and_update_inc.
  cbv zeta. simpl with_counters.
  match goal with |- context [insert_one_sale ?doc ?c] =>
    destruct (insert_one_sale doc c) as [coll|] eqn:Es end; [|intros [=]].
  apply insert_one_sale_Some in Es as [-> Ef].
  simpl in Ef |- *. unfold serialize. rewrite Ef.
  intros [= <- <-]. exists lis, sub.
  split; [discriminate|]. split; [reflexivity|].
  split; [now apply Qltb_ge|]. split; reflexivity.
Qed.





















(** ** Decimal rendering *)

Lemma length_append (a b : string) :
  String.length (a +:+ b) = (String.length a + String.length b)%nat.
Proof. induction a as [|c a IH]; simpl; [reflexivity | now rewrite IH]. Qed.

Lemma all_digits_append (a b : string) :
  all_digits (a +:+ b) = all_digits a && all_digits b.
Proof.
  induction a as [|c a IH]; simpl; [reflexivity|].
  now rewrite IH, andb_assoc.
Qed.

Lemma decimal_value_append (a b : string) (acc : N) :
  decimal_value (a +:+ b) acc = decimal_value b (decimal_value a acc).
Proof.
  revert acc. induction a as [|c a IH]; intros acc; simpl; [reflexivity|].
  apply IH.
Qed.

Lemma length_zeros (k : nat) : String.length (zeros k) = k.
Proof. induction k as [|k IH]; simpl; [reflexivity | now rewrite IH]. Qed.

Lemma all_digits_zeros (k : nat) : all_digits (zeros k) = true.
Proof. induction k as [|k IH]; simpl; [reflexivity | exact IH]. Qed.

Lemma decimal_value_zeros (k : nat) : decimal_value (zeros k) 0 = 0%N.
Proof. induction k as [|k IH]; simpl; [reflexivity | exact IH]. Qed.

Lemma length_zfill (w : nat) (s : string) :
  String.length (zfill w s) = Nat.max w (String.length s).
Proof. unfold zfill. rewrite length_append, length_zeros. lia. Qed.

Lemma all_digits_zfill (w : nat) (s : string) :
  all_digits s = true -> all_digits (zfill w s) = true.
Proof.
  intros H. unfold zfill. now rewrite all_digits_append, all_digits_zeros, H.
Qed.

Lemma decimal_value_zfill (w : nat) (s : string) :
  decimal_value (zfill w s) 0 = decimal_value s 0.
Proof.
  unfold zfill. now rewrite decimal_value_append, decimal_value_zeros.
Qed.

Lemma dec_digits_value (fuel : nat) : forall n : N,
  (n < 2 ^ N.of_nat fuel)%N -> lsb_value (dec_digits fuel n) = n.
Proof.
  induction fuel as [|fuel IH]; intros n Hn.
  - simpl in *. lia.
  - cbn [dec_digits lsb_value].
    destruct (n / 10 =? 0)%N eqn:E.
    + apply N.eqb_eq in E. simpl. pose proof (N.div_mod n 10). lia.
    + apply N.eqb_neq in E. rewrite IH.
      * pose proof (N.div_mod n 10). lia.
      * rewrite Nat2N.inj_succ, N.pow_succ_r' in Hn.
        apply N.Div0.div_lt_upper_bound. lia.
Qed.

Lemma dec_digits_small (fuel : nat) : forall n : N,
  Forall (fun dg => dg < 10)%N (dec_digits fuel n).
Proof.
  induction fuel as [|fuel IH]; intros n; cbn [dec_digits]; constructor.
  - apply N.mod_lt. discriminate.
  - destruct (n / 10 =? 0)%N; [constructor | apply IH].
Qed.

Lemma dec_digits_length (fuel : nat) : forall (n : N) (k : nat),
  (n < 10 ^ N.of_nat (S k))%N -> (length (dec_digits fuel n) <= S k)%nat.
Proof.
  induction fuel as [|fuel IH]; intros n k Hn; cbn [dec_digits]; simpl length.
  - lia.
  - destruct (n / 10 =? 0)%N eqn:E; [simpl; lia|].
    apply N.eqb_neq in E.
    destruct k as [|k].
    + exfalso. apply E. apply N.div_small. simpl in Hn. exact Hn.
    + apply le_n_S. apply IH.
      rewrite Nat2N.inj_succ, N.pow_succ_r' in Hn.
      apply N.Div0.div_lt_upper_bound. exact Hn.
Qed.

Lemma is_digit_digit_char (dg : N) : (dg < 10)%N -> is_digit (digit_char dg) = true.
Proof.
  intros H. unfold is_digit, digit_char.
  rewrite N_ascii_embedding by lia.
  apply andb_true_iff. split; apply N.leb_le; lia.
Qed.

Lemma digit_char_value (dg : N) :
  (dg < 10)%N -> (N_of_ascii (digit_char dg) - 48)%N = dg.
Proof.
  intros H. unfold digit_char. rewrite N_ascii_embedding by lia. lia.
Qed.

Lemma string_of_list_ascii_snoc (l : list ascii) (c : ascii) :
  string_of_list_ascii (l ++ [c]) =
  string_of_list_ascii l +:+ String c EmptyString.
Proof. induction l as [|a l IH]; simpl; [reflexivity | now rewrite IH]. Qed.

Lemma render_digits (ds : list N) :
  Forall (fun dg => dg < 10)%N ds ->
  let s := string_of_list_ascii (rev (map digit_char ds)) in
  String.length s = length ds /\ all_digits s = true /\
  decimal_value s 0 = lsb_value ds.
Proof.
  induction 1 as [|dg ds Hd _ IH]; [simpl; auto|].
  destruct IH as (L & A & V). cbn zeta. simpl rev.
  rewrite string_of_list_ascii_snoc.
  rewrite length_append, all_digits_append, decimal_value_append, L, A, V.
  simpl. rewrite is_digit_digit_char, digit_char_value by assumption.
  repeat split; lia.
Qed.

Lemma str_N_spec (n : N) :
  all_digits (str_N n) = true /\ decimal_value (str_N n) 0 = n /\
  forall k : nat, (n < 10 ^ N.of_nat (S k))%N -> (String.length (str_N n) <= S k)%nat.
Proof.
  unfold str_N.
  destruct (render_digits _ (dec_digits_small (S (N.to_nat (N.log2 n))) n))
    as (L & A & V).
  split; [exact A|]. split.
  - rewrite V. apply dec_digits_value.
    rewrite Nat2N.inj_succ, N2Nat.id.
    destruct n as [|p]; [reflexivity|]. apply N.log2_spec. reflexivity.
  - intros k Hk. rewrite L. now apply dec_digits_length.
Qed.

Lemma field_fixed_width (w : nat) (n : N) :
  (n < 10 ^ N.of_nat (S w))%N ->
  String.length (zfill (S w) (str_N n)) = S w /\
  all_digits (zfill (S w) (str_N n)) = true.
Proof.
  intros H. destruct (str_N_spec n) as (A & _ & L).
  split; [|now apply all_digits_zfill].
  rewrite length_zfill. specialize (L w H). lia.
Qed.

Lemma strftime_YmdHMS_shape (t : datetime) :
  datetime_ok t ->
  String.length (strftime_YmdHMS t) = 14%nat /\
  all_digits (strftime_YmdHMS t) = true.
Proof.
  intros (Hy & Hm & Hd & Hh & Hi & Hs & _). unfold strftime_YmdHMS.
  destruct (field_fixed_width 3 (year t)) as [L1 A1]; [simpl; lia|].
  destruct (field_fixed_width 1 (month t)) as [L2 A2]; [simpl; lia|].
  destruct (field_fixed_width 1 (day t)) as [L3 A3]; [simpl; lia|].
  destruct (field_fixed_width 1 (hour t)) as [L4 A4]; [simpl; lia|].
  destruct (field_fixed_width 1 (minute t)) as [L5 A5]; [simpl; lia|].
  destruct (field_fixed_width 1 (second t)) as [L6 A6]; [simpl; lia|].
  rewrite !length_append, !all_digits_append, L1, L2, L3, L4, L5, L6,
    A1, A2, A3, A4, A5, A6.
  split; reflexivity.
Qed.

Lemma format_0d_4_nonneg (num : Z) :
  0 <= num ->
  (4 <= String.length (format_0d 4 num))%nat /\
  all_digits (format_0d 4 num) = true /\
  Z.of_N (decimal_value (format_0d 4 num) 0) = num /\
  (num <= 9999 -> String.length (format_0d 4 num) = 4%nat).
Proof.
  intros H. unfold format_0d.
  destruct (num <? 0) eqn:E; [apply Z.ltb_lt in E; lia|].
  destruct (str_N_spec (Z.to_N num)) as (A & V & L).
  rewrite length_zfill, decimal_value_zfill, V.
  split; [lia|]. split; [now apply all_digits_zfill|]. split; [lia|].
  intros Hs. specialize (L 3%nat). simpl in L.
  assert (String.length (str_N (Z.to_N num)) <= 4)%nat by (apply L; lia). lia.
Qed.

(** ** The receipt counter *)


Lemma generate_receipt_no_spec (now : datetime) (d : Db) :
  generate_receipt_no now d =
    (inr ("R" +:+ strftime_YmdHMS now +:+ "-" +:+
          format_0d 4 (counter_value d + 1)),
     (next_receipt_seq d).2).
Proof. reflexivity. Qed.



Lemma increasing_NoDup (l : list Z) : StronglySorted Z.lt l -> NoDup l.
Proof.
  induction 1 as [|v l _ IH F]; constructor; [|exact IH].
  intros Hin. rewrite Forall_forall in F. specialize (F v Hin). lia.
Qed.



(** ** The receipt number *)

(** C5 (amended).  A receipt number is the character [R], the 14 digits
    of the UTC time as [YYYYMMDDHHMMSS], a hyphen, and the sequence value
    in decimal, padded with zeros to at least four digits: exactly four
    up to 9999, and as many as the value needs beyond. *)
Theorem generate_receipt_no_format (now : datetime) (d : Db) :
  datetime_ok now ->
  0 <= counter_value d ->
  exists ts sq,
    (generate_receipt_no now d).1 = inr ("R" +:+ ts +:+ "-" +:+ sq) /\
    ts = strftime_YmdHMS now /\
    String.length ts = 14%nat /\ all_digits ts = true /\
    (4 <= String.length sq)%nat /\ all_digits sq = true /\
    Z.of_N (decimal_value sq 0) = counter_value d + 1 /\
    (counter_value d + 1 <= 9999 -> String.length sq = 4%nat).
Proof.
  intros Hn Hc. rewrite generate_receipt_no_spec.
  destruct (strftime_YmdHMS_shape now Hn) as [L A].
  destruct (format_0d_4_nonneg (counter_value d + 1)) as (L4 & A4 & V & E);
    [lia|].
  eexists _, _. split; [reflexivity|]. auto 10.
Qed.

Lemma generate_receipt_no_format_witness :
  exists ts sq,
    (generate_receipt_no t0 sample_db).1 = inr ("R" +:+ ts +:+ "-" +:+ sq) /\
    ts = "20240102030405" /\
    String.length ts = 14%nat /\ all_digits ts = true /\
    (4 <= String.length sq)%nat /\ all_digits sq = true /\
    Z.of_N (decimal_value sq 0) = 1 /\
    (1 <= 9999 -> String.length sq = 4%nat).
Proof.
  apply (generate_receipt_no_format t0 sample_db).
  - unfold datetime_ok. simpl. lia.
  - discriminate.
Defined.

(** C5, as the claim words it, fails: the first receipt issued at
    2024-01-02 03:04:05 is [R20240102030405-0001], twenty characters with
    a hyphen, not [R] followed by fourteen and four digits. *)
Lemma receipt_no_has_hyphen :
  (generate_receipt_no t0 sample_db).1 = inr "R20240102030405-0001" /\
  ~ receipt_ts_seq4 "R20240102030405-0001".
Proof.
  split; [reflexivity|].
  intros (ts & sq & E & Lt & _ & Ls & _).
  apply (f_equal String.length) in E.
  rewrite !length_append in E. simpl in E. lia.
Qed.

(** ** Inventory *)

(** A body without a name, or without a price, is refused before the
    handler runs. *)
Lemma create_item_requires_name_and_price utcnow new_id body db :
  body_name body = None \/ body_price body = None ->
  create_item utcnow new_id body db = (inl RequestValidationError, db).
Proof.
  intros H. unfold create_item, ItemIn_validate.
  destruct (body_name body), (body_price body), H; try discriminate; reflexivity.
Qed.

(** An accepted body is stored under the identifier that the insertion
    assigned, with both timestamps, and the stored document is returned. *)
Lemma create_item_stores utcnow new_id body payload d :
  ItemIn_validate body = inr payload ->
  item d !! new_id = None ->
  create_item utcnow new_id body (Some d) =
    (inr (Some (new_id, item_doc_of utcnow payload)),
     Some (with_item d (<[new_id := item_doc_of utcnow payload]> (item d)))).
Proof.
  intros Hv Hf. unfold create_item, guard_db, insert_one_item, serialize.
  rewrite Hv, Hf. simpl. rewrite lookup_insert_eq. reflexivity.
Qed.

(** C7.  [POST /api/items] with the body [{"name": "Cola", "price": -1}]
    is accepted: the item is stored with the negative price, although the
    [Item] schema of the repository requires [price >= 0]. *)
Theorem create_item_accepts_negative_price :
  exists doc,
    create_item sample_utcnow 9%N cola_body (Some empty_db) =
      (inr (Some (9%N, doc)), Some (with_item empty_db {[9%N := doc]})) /\
    item_name doc = "Cola" /\ (item_price doc < 0)%Q.
Proof.
  eexists. split; [|split].
  - apply create_item_stores; reflexivity.
  - reflexivity.
  - reflexivity.
Qed.



(** ** Listing and statistics *)

#[local] Instance created_desc_trans : Transitive created_desc.
Proof. unfold created_desc. intros a b c H1 H2. lia. Qed.

#[local] Instance created_desc_total : Total created_desc.
Proof. unfold created_desc. intros a b. lia. Qed.












(** ** Stores reachable through the API *)


Lemma serve_item_requests req d :
  match req with POST_sales _ _ _ => False | _ => True end ->
  sale (serve req d) = sale d /\ counters (serve req d) = counters d.
Proof.
  destruct req as [u n b|u i p|i|u n p]; intros H; [| | |destruct H];
    unfold serve.
  - unfold create_item, guard_db.
    destruct (ItemIn_validate b); [auto|].
    destruct (insert_one_item _ _ _); auto.
  - unfold update_item, guard_db.
    destruct (oid i); [auto|].
    destruct (update_one _ _ _) as [[|k] coll]; auto.
  - unfold delete_item, guard_db.
    destruct (oid i); [auto|].
    destruct (delete_one _ _) as [[|k] coll]; auto.
Qed.





(** * Further properties *)

(** ** Identifiers, again *)






(** ** Inventory, again *)



(** X3.  [update_item] on an identifier that names no item answers 404
    and writes nothing; on a malformed identifier it answers 400 and
    writes nothing. *)
Theorem update_item_missing utcnow id_str payload d :
  (forall i, oid id_str = inr i -> item d !! i = None ->
     exists d',
       update_item utcnow id_str payload (Some d) =
         (inl (HTTPException 404 "Item not found"), Some d') /\
       same_store d d') /\
  (forall e, oid id_str = inl e ->
     update_item utcnow id_str payload (Some d) =
       (inl (HTTPException 400 "Invalid id format"), Some d)).
Proof.
  unfold update_item, guard_db, update_one. split.
  - intros i Ei Ed. rewrite Ei, Ed. simpl.
    eexists. split; [reflexivity|]. repeat split.
  - intros e Ee. rewrite Ee. unfold oid in Ee.
    destruct (ObjectId_of_str id_str); [discriminate|]. now injection Ee as <-.
Qed.

Lemma update_item_missing_witness :
  (exists d',
     update_item sample_utcnow "0000000000000000000000ff" reprice_coffee
       (Some sample_db) =
       (inl (HTTPException 404 "Item not found"), Some d') /\
     same_store sample_db d') /\
  update_item sample_utcnow "coffee" reprice_coffee (Some sample_db) =
    (inl (HTTPException 400 "Invalid id format"), Some sample_db).
Proof.
  split.
  - exact (proj1 (update_item_missing sample_utcnow "0000000000000000000000ff"
                    reprice_coffee sample_db) 255%N eq_refl eq_refl).
  - exact (proj2 (update_item_missing sample_utcnow "coffee" reprice_coffee
                    sample_db) _ eq_refl).
Defined.

(** X4.  Deleting an existing item answers [{"ok": True}], removes that
    item and nothing else: the other items, the sales (whose line items
    are copies) and the counters are as before. *)
Theorem delete_item_existing id_str d i doc :
  oid id_str = inr i ->
  item d !! i = Some doc ->
  exists d',
    delete_item id_str (Some d) = (inr true, Some d') /\
    item d' !! i = None /\
    (forall j, j <> i -> item d' !! j = item d !! j) /\
    sale d' = sale d /\ counters d' = counters d.
Proof.
  intros Ei Ed. unfold delete_item, guard_db, delete_one.
  rewrite Ei, Ed. simpl. eexists. split; [reflexivity|]. simpl.
  split; [apply lookup_delete_eq|].
  split; [|split; reflexivity].
  intros j Hj. apply lookup_delete_ne. congruence.
Qed.

Lemma delete_item_existing_witness :
  exists d',
    delete_item tea_id (Some sample_db) = (inr true, Some d') /\
    item d' !! 2%N = None /\
    (forall j, j <> 2%N -> item d' !! j = item sample_db !! j) /\
    sale d' = [] /\ counters d' = ∅.
Proof.
  exact (delete_item_existing tea_id sample_db 2%N tea eq_refl eq_refl).
Defined.

(** X5.  Deleting an identifier that names no item answers 404 and
    writes nothing, so deleting the same item a second time fails; a
    malformed identifier answers 400. *)
Theorem delete_item_missing id_str d :
  (forall i, oid id_str = inr i -> item d !! i = None ->
     exists d',
       delete_item id_str (Some d) =
         (inl (HTTPException 404 "Item not found"), Some d') /\
       same_store d d') /\
  (forall i d1, oid id_str = inr i ->
     (delete_item id_str (Some d)).2 = Some d1 ->
     (delete_item id_str (Some d1)).1 =
       inl (HTTPException 404 "Item not found")) /\
  (forall e, oid id_str = inl e ->
     delete_item id_str (Some d) =
       (inl (HTTPException 400 "Invalid id format"), Some d)).
Proof.
  unfold delete_item, guard_db, delete_one. split; [|split].
  - intros i Ei Ed. rewrite Ei, Ed. simpl.
    eexists. split; [reflexivity|]. repeat split.
  - intros i d1 Ei. rewrite Ei.
    destruct (item d !! i) as [doc|] eqn:Ed; simpl; intros [= <-]; simpl.
    + now rewrite lookup_delete_eq.
    + now rewrite Ed.
  - intros e Ee. rewrite Ee. unfold oid in Ee.
    destruct (ObjectId_of_str id_str); [discriminate|]. now injection Ee as <-.
Qed.

Lemma delete_item_missing_witness :
  (exists d',
     delete_item "0000000000000000000000ff" (Some sample_db) =
       (inl (HTTPException 404 "Item not found"), Some d') /\
     same_store sample_db d') /\
  (delete_item tea_id (delete_item tea_id (Some sample_db)).2).1 =
    inl (HTTPException 404 "Item not found") /\
  delete_item "tea" (Some sample_db) =
    (inl (HTTPException 400 "Invalid id format"), Some sample_db).
Proof.
  destruct (delete_item_missing "0000000000000000000000ff" sample_db)
    as (H1 & _ & _).
  destruct (delete_item_missing tea_id sample_db) as (_ & H2 & _).
  destruct (delete_item_missing "tea" sample_db) as (_ & _ & H3).
  split; [exact (H1 255%N eq_refl eq_refl)|].
  split; [exact (H2 2%N _ eq_refl eq_refl)|].
  exact (H3 _ eq_refl).
Defined.



(** ** Sales, again *)

(** [create_sale], branch by branch. *)
Lemma create_sale_cases utcnow new_id payload d :
  create_sale utcnow new_id payload (Some d) =
  match items payload with
  | [] => (inl (HTTPException 400 "No items in sale"), Some d)
  | _ :: _ =>
      match collect_lines d (items payload) [] 0%Q with
      | inl e => (inl e, Some d)
      | inr (lis, sub) =>
          if Qltb (paid payload) (round2 (sub + round2 (sub * 0)))
          then (inl (HTTPException 400 "Paid amount is less than total"),
                Some d)
          else if existsb (fun s => (sale_id s =? new_id)%N) (sale d)
          then (inl (HTTPException 500 "DuplicateKeyError"),
                Some (with_counters d
                        (<["receipt" := counter_value d + 1]> (counters d))))
          else (inr (Some (assembled utcnow new_id payload d lis sub)),
                Some {| item := decrement_stock utcnow 2 lis (item d);
                        sale := sale d ++
                                [assembled utcnow new_id payload d lis sub];
                        counters := <["receipt" := counter_value d + 1]>
                                      (counters d) |})
      end
  end.
Proof.
  unfold create_sale, guard_db.
  destruct (items payload) as [|it0 rest]; [reflexivity|].
  destruct (collect_lines d (it0 :: rest) [] 0%Q) as [e|[lis sub]];
    [reflexivity|].
  destruct (Qltb (paid payload) _); [reflexivity|].
  unfold generate_receipt_no, next_receipt_seq, find_one_and_update_inc.
  cbv zeta. simpl with_counters. unfold insert_one_sale. cbn [sale_id sale].
  simpl sale.
  destruct (existsb _ (sale d)) eqn:Ex; [reflexivity|].
  simpl. unfold serialize.
  pose proof (find_one_sale_app_new
                (assembled utcnow new_id payload d lis sub) (sale d) Ex) as F.
  simpl in F. unfold assembled in F |- *. unfold counter_value.
  rewrite F. reflexivity.
Qed.






Lemma decrement_stock_lookup utcnow lis : forall k coll i,
  item_stock <$> decrement_stock utcnow k lis coll !! i =
    (fun doc => item_stock doc - ordered i lis) <$> coll !! i /\
  item_static <$> decrement_stock utcnow k lis coll !! i =
    item_static <$> coll !! i /\
  (Forall (fun li => li_item_id li <> i) lis ->
   decrement_stock utcnow k lis coll !! i = coll !! i).
Proof.
  induction lis as [|li lis IH]; intros k coll i; cbn [decrement_stock ordered foldr].
  - split; [|split; [reflexivity | reflexivity]].
    destruct (coll !! i); simpl; [f_equal; lia | reflexivity].
  - fold (ordered i lis).
    destruct (IH (S k) (update_one (li_item_id li)
                          (inc_stock (li_quantity li) (utcnow k)) coll).2 i)
      as (S1 & S2 & S3).
    rewrite S1, S2. clear S1 S2. unfold update_one.
    destruct (N.eqb_spec (li_item_id li) i) as [E|Hne].
    + split; [|split]; [rewrite E | rewrite E |].
      * destruct (coll !! i) as [doc|] eqn:Ed; simpl.
        -- rewrite lookup_insert_eq. simpl. f_equal. lia.
        -- now rewrite Ed.
      * destruct (coll !! i) as [doc|] eqn:Ed; simpl.
        -- now rewrite lookup_insert_eq.
        -- now rewrite Ed.
      * intros F. inversion F; subst. congruence.
    + assert (L : (match coll !! li_item_id li with
                   | Some doc =>
                       (1%nat, <[li_item_id li :=
                                   inc_stock (li_quantity li) (utcnow k) doc]> coll)
                   | None => (0%nat, coll)
                   end).2 !! i = coll !! i).
      { destruct (coll !! li_item_id li); simpl; [|reflexivity].
        now apply lookup_insert_ne. }
      split; [|split].
      * now rewrite L.
      * now rewrite L.
      * intros F. inversion F; subst. unfold update_one in S3.
        rewrite S3 by assumption. exact L.
Qed.

(** X9.  After a successful sale the stock of every item is its stock
    before, less what the sale's line items order of it in total; lines
    that name the same item add up, each having been checked alone
    against the full stock.  Name, price, code, category, active flag and
    creation time of every item are as before, and an item that no line
    names is untouched. *)
Theorem create_sale_stock utcnow new_id payload d s d' :
  create_sale utcnow new_id payload (Some d) = (inr (Some s), Some d') ->
  forall i,
    item_stock <$> item d' !! i =
      (fun doc => item_stock doc - ordered i (sale_items s)) <$> item d !! i /\
    item_static <$> item d' !! i = item_static <$> item d !! i /\
    (Forall (fun li => li_item_id li <> i) (sale_items s) ->
     item d' !! i = item d !! i).
Proof.
  intros H i.
  apply create_sale_inr in H as (lis & sub & _ & _ & _ & [= ->] & [= ->]).
  simpl. apply decrement_stock_lookup.
Qed.

Lemma create_sale_stock_witness :
  exists s d',
    create_sale sample_utcnow 7%N
      (order [line coffee_id 6; line coffee_id 6] 100) (Some sample_db)
      = (inr (Some s), Some d') /\
    ordered 1%N (sale_items s) = 12 /\
    item_stock <$> item d' !! 1%N = Some (-2) /\
    item d' !! 2%N = item sample_db !! 2%N.
Proof.
  eexists _, _. split; [reflexivity|].
  split; [reflexivity|].
  match goal with |- context [item ?d' !! 1%N] =>
    destruct (create_sale_stock sample_utcnow 7%N
                (order [line coffee_id 6; line coffee_id 6] 100) sample_db
                _ d' eq_refl 1%N) as (S1 & _ & _);
    destruct (create_sale_stock sample_utcnow 7%N
                (order [line coffee_id 6; line coffee_id 6] 100) sample_db
                _ d' eq_refl 2%N) as (_ & _ & S3)
  end.
  split.
  - rewrite S1. reflexivity.
  - apply S3. repeat constructor; discriminate.
Defined.



(** ** Receipts of the stores reachable through the API *)

Lemma string_drop_append (a b : string) (k : nat) :
  string_drop (String.length a + k) (a +:+ b) = string_drop k b.
Proof. induction a as [|c a IH]; simpl; [reflexivity | exact IH]. Qed.

Lemma receipt_seq_assembled utcnow new_id payload d lis sub :
  datetime_ok (utcnow 0%nat) ->
  0 <= counter_value d ->
  receipt_seq (sale_receipt_no (assembled utcnow new_id payload d lis sub)) =
    counter_value d + 1.
Proof.
  intros Hc Hn. unfold receipt_seq. simpl sale_receipt_no.
  destruct (strftime_YmdHMS_shape _ Hc) as [L _].
  change (string_drop 16 ("R" +:+ ?x)) with (string_drop 15 x).
  change 15%nat with (14 + 1)%nat. rewrite <- L, string_drop_append.
  simpl string_drop. fold (counter_value d).
  apply format_0d_4_nonneg. lia.
Qed.

Lemma serve_receipts_inv req d :
  clock_ok req -> receipts_inv d -> receipts_inv (serve req d).
Proof.
  intros Hc (Hn & Hle & Hs).
  destruct req as [u n b|u i p|i|u n p].
  1-3: match goal with |- context [serve ?r ?d0] =>
         destruct (serve_item_requests r d0 I) as [S C];
         unfold receipts_inv, counter_value; rewrite S, C;
         split; [exact Hn | split; [exact Hle | exact Hs]]
       end.
  unfold serve. rewrite create_sale_cases.
  assert (Same : receipts_inv d) by (split; [|split]; assumption).
  destruct (items p) as [|it0 rest]; [exact Same|].
  destruct (collect_lines d (it0 :: rest) [] 0%Q) as [e|[lis sub]];
    [exact Same|].
  destruct (Qltb (paid p) _); [exact Same|].
  assert (Cv : forall it sl,
            counter_value {| item := it; sale := sl;
                             counters := <["receipt" := counter_value d + 1]>
                                           (counters d) |}
            = counter_value d + 1).
  { intros it sl. unfold counter_value at 1. simpl.
    now rewrite lookup_insert_eq. }
  destruct (existsb _ (sale d)); simpl default.
  - unfold receipts_inv, with_counters. rewrite Cv. simpl sale.
    split; [lia|]. split; [|exact Hs].
    eapply Forall_impl; [exact Hle|]. simpl. intros s Hsq. lia.
  - unfold receipts_inv. rewrite Cv. simpl sale.
    pose proof (receipt_seq_assembled u n p d lis sub Hc Hn) as Hr.
    split; [lia|]. split.
    + apply Forall_app. split.
      * eapply Forall_impl; [exact Hle|]. simpl. intros s Hsq. lia.
      * constructor; [|constructor]. lia.
    + rewrite map_app. apply StronglySorted_app. split; [|split].
      * intros x y Hx Hy. cbn [map] in Hy. apply list_elem_of_singleton in Hy.
        subst y. rewrite Hr.
        apply list_elem_of_fmap in Hx as (s & -> & Hs').
        rewrite Forall_forall in Hle. specialize (Hle s Hs'). lia.
      * exact Hs.
      * simpl. repeat constructor.
Qed.

Lemma run_receipts_inv history :
  Forall clock_ok history -> receipts_inv (run history).
Proof.
  unfold run. induction history as [|req history IH] using rev_ind; intros F.
  - split; [|split; constructor]. unfold counter_value. simpl.
    rewrite lookup_empty. simpl. lia.
  - apply Forall_app in F as [F1 F2]. rewrite foldl_snoc.
    apply serve_receipts_inv; [|now apply IH].
    now inversion F2.
Qed.

Lemma receipts_inv_NoDup d :
  receipts_inv d -> NoDup (map sale_receipt_no (sale d)).
Proof.
  intros (_ & _ & Hs). apply increasing_NoDup in Hs.
  rewrite <- (map_map sale_receipt_no receipt_seq) in Hs.
  eapply NoDup_fmap_1, Hs.
Qed.

Lemma find_unique_receipt (l : list SaleDoc) (s : SaleDoc) :
  NoDup (map sale_receipt_no l) -> s ∈ l ->
  find (fun x => String.eqb (sale_receipt_no x) (sale_receipt_no s)) l = Some s.
Proof.
  induction l as [|x l IH]; intros Hn Hin; [inversion Hin|].
  simpl in Hn |- *. apply NoDup_cons in Hn as [Hx Hn].
  destruct (String.eqb_spec (sale_receipt_no x) (sale_receipt_no s)) as [E|E].
  - apply elem_of_cons in Hin as [->|Hin]; [reflexivity|].
    exfalso. apply Hx. rewrite E. apply list_elem_of_fmap. eauto.
  - apply elem_of_cons in Hin as [->|Hin]; [congruence|]. now apply IH.
Qed.

(** X12.  In every store reached from the empty one through the API,
    with clock readings that are dates, the stored sales carry receipt
    numbers whose sequence values increase strictly in the order in which
    the sales were stored; no two sales share a receipt number, whatever
    their timestamps. *)
Theorem run_receipts_unique history :
  Forall clock_ok history ->
  StronglySorted Z.lt
    (map (fun s => receipt_seq (sale_receipt_no s)) (sale (run history))) /\
  NoDup (map sale_receipt_no (sale (run history))).
Proof.
  intros F. pose proof (run_receipts_inv history F) as Hi.
  split; [apply Hi | now apply receipts_inv_NoDup].
Qed.

Lemma sample_history_clock_ok : Forall clock_ok sample_history.
Proof.
  repeat constructor; unfold datetime_ok; simpl; lia.
Qed.

Lemma run_receipts_unique_witness :
  map sale_receipt_no (sale (run sample_history)) =
    ["R20240102030405-0001"; "R20240102030405-0002"] /\
  StronglySorted Z.lt
    (map (fun s => receipt_seq (sale_receipt_no s))
       (sale (run sample_history))) /\
  NoDup (map sale_receipt_no (sale (run sample_history))).
Proof.
  split; [reflexivity|].
  exact (run_receipts_unique sample_history sample_history_clock_ok).
Defined.

(** X13.  [get_receipt] answers 404 exactly when no stored sale carries
    the receipt number, and otherwise returns a sale that carries it,
    without writing.  In a store reached through the API with clock
    readings that are dates, every stored sale is the one returned for
    its own receipt number. *)
Theorem get_receipt_finds receipt_no d :
  (Forall (fun s => sale_receipt_no s <> receipt_no) (sale d) ->
   get_receipt receipt_no (Some d) =
     (inl (HTTPException 404 "Receipt not found"), Some d)) /\
  (forall s, s ∈ sale d -> sale_receipt_no s = receipt_no ->
     exists s', get_receipt receipt_no (Some d) = (inr s', Some d) /\
                s' ∈ sale d /\ sale_receipt_no s' = receipt_no) /\
  (forall history s,
     d = run history -> Forall clock_ok history ->
     s ∈ sale d -> sale_receipt_no s = receipt_no ->
     get_receipt receipt_no (Some d) = (inr s, Some d)).
Proof.
  unfold get_receipt, serialize. split; [|split].
  - intros F.
    destruct (find _ (sale d)) as [s|] eqn:E; [|reflexivity].
    apply find_some in E as [Hin He]. apply String.eqb_eq in He.
    rewrite Forall_forall in F. apply list_elem_of_In in Hin.
    now apply F in Hin.
  - intros s Hin Hr.
    destruct (find _ (sale d)) as [s'|] eqn:E.
    + apply find_some in E as [Hin' He]. apply String.eqb_eq in He.
      exists s'. split; [reflexivity|]. split; [|exact He].
      now apply list_elem_of_In.
    + apply list_elem_of_In in Hin.
      apply (find_none _ _ E) in Hin. apply String.eqb_neq in Hin.
      congruence.
  - intros history s -> F Hin <-.
    rewrite find_unique_receipt; [reflexivity| |exact Hin].
    apply receipts_inv_NoDup, run_receipts_inv, F.
Qed.

Lemma get_receipt_finds_witness :
  get_receipt "R1" (Some (run sample_history)) =
    (inl (HTTPException 404 "Receipt not found"), Some (run sample_history)) /\
  exists s,
    sale (run sample_history) !! 1%nat = Some s /\
    sale_id s = 8%N /\
    get_receipt "R20240102030405-0002" (Some (run sample_history)) =
      (inr s, Some (run sample_history)).
Proof.
  split.
  - apply (proj1 (get_receipt_finds "R1" (run sample_history))).
    repeat constructor; discriminate.
  - eexists. split; [reflexivity|]. split; [reflexivity|].
    apply (proj2 (proj2 (get_receipt_finds "R20240102030405-0002"
                           (run sample_history))) sample_history).
    + reflexivity.
    + exact sample_history_clock_ok.
    + apply list_elem_of_lookup. exists 1%nat. reflexivity.
    + reflexivity.
Defined.

(** ** Listing and statistics, again *)

(** X14.  With an accepted limit and date bounds that parse,
    [list_sales] returns the newest of the matching sales: the matching
    sales are the returned ones together with some older ones, none of
    which is newer than any returned sale, and nothing is left out when
    the limit is at least the number of matching sales.  The store is
    not written. *)
Theorem list_sales_newest fromisoformat limit n start end_ d lo hi :
  Query_limit limit = inr n ->
  date_range fromisoformat start end_ = inr (lo, hi) ->
  exists sales older,
    list_sales fromisoformat limit start end_ (Some d) = (inr sales, Some d) /\
    sales ++ older ≡ₚ List.filter (matches lo hi) (sale d) /\
    Forall (fun o => Forall (fun s => created_desc s o) sales) older /\
    ((length (List.filter (matches lo hi) (sale d)) <= Z.to_nat n)%nat ->
     older = []).
Proof.
  intros Hl Hr. unfold list_sales, guard_db. rewrite Hl, Hr.
  fold (matches lo hi). unfold serialize. rewrite map_id.
  set (found := List.filter (matches lo hi) (sale d)).
  set (sorted := merge_sort created_desc found).
  exists (take (Z.to_nat n) sorted), (drop (Z.to_nat n) sorted).
  split; [reflexivity|]. split; [|split].
  - rewrite take_drop. apply merge_sort_Permutation.
  - assert (Hs : StronglySorted created_desc sorted)
      by (apply StronglySorted_merge_sort; apply _).
    rewrite <- (take_drop (Z.to_nat n) sorted) in Hs.
    apply StronglySorted_app in Hs as (Hx & _ & _).
    apply Forall_forall. intros o Ho. apply Forall_forall. intros s Hs.
    now apply Hx.
  - intros Hlen. apply drop_ge. unfold sorted.
    rewrite (Permutation_length (merge_sort_Permutation created_desc found)).
    exact Hlen.
Qed.

Lemma list_sales_newest_witness :
  exists sales older,
    list_sales fromisoformat_date (Some 1) None None (Some sample_sold_db)
      = (inr sales, Some sample_sold_db) /\
    sales ++ older ≡ₚ List.filter (matches None None) (sale sample_sold_db) /\
    Forall (fun o => Forall (fun s => created_desc s o) sales) older /\
    ((length (List.filter (matches None None) (sale sample_sold_db))
      <= Z.to_nat 1)%nat -> older = []).
Proof.
  exact (list_sales_newest fromisoformat_date (Some 1) 1 None None
           sample_sold_db None None eq_refl eq_refl).
Defined.

#[local] Instance quantity_desc_trans : Transitive quantity_desc.
Proof. unfold quantity_desc. intros a b c H1 H2. lia. Qed.

#[local] Instance quantity_desc_total : Total quantity_desc.
Proof. unfold quantity_desc. intros a b. lia. Qed.

Lemma group_fold_lookup lines : forall (acc : gmap N Z) i,
  foldl (fun acc li =>
           <[li_item_id li :=
               default 0 (acc !! li_item_id li) + li_quantity li]> acc)
        acc lines !! i =
  match acc !! i with
  | Some q => Some (q + ordered i lines)
  | None => if mentions i lines then Some (ordered i lines) else None
  end.
Proof.
  induction lines as [|li lines IH]; intros acc i.
  - simpl. destruct (acc !! i); [f_equal; lia | reflexivity].
  - cbn [foldl mentions existsb ordered foldr]. rewrite IH.
    fold (ordered i lines). fold (mentions i lines).
    destruct (N.eqb_spec (li_item_id li) i) as [E|E].
    + rewrite E, lookup_insert_eq.
      destruct (acc !! i); simpl; f_equal; lia.
    + rewrite lookup_insert_ne by exact E. simpl. reflexivity.
Qed.

Lemma group_quantities_lookup sales i :
  group_quantities sales !! i =
  if mentions i (concat (map sale_items sales))
  then Some (ordered i (concat (map sale_items sales))) else None.
Proof.
  unfold group_quantities. rewrite group_fold_lookup, lookup_empty.
  reflexivity.
Qed.

Lemma mentions_nil_iff lines :
  (forall i, mentions i lines = false) <-> lines = [].
Proof.
  split; [|intros ->; reflexivity].
  destruct lines as [|li lines]; [reflexivity|]. intros H.
  specialize (H (li_item_id li)). simpl in H. now rewrite N.eqb_refl in H.
Qed.

Lemma last_cons {A} (l : list A) : forall z x,
  List.last (z :: l) x = List.last l z.
Proof.
  induction l as [|w l IH]; intros z x; [reflexivity|].
  change (List.last (z :: w :: l) x) with (List.last (w :: l) x).
  now rewrite (IH w x), (IH w z).
Qed.

Lemma last_elem {A} (l : list A) x : List.last l x ∈ x :: l.
Proof.
  revert x. induction l as [|w l IH]; intros x; [left|].
  rewrite last_cons. right. apply IH.
Qed.

Lemma sorted_head_last {A} (R : A -> A -> Prop) `{!Reflexive R} x l :
  StronglySorted R (x :: l) ->
  forall y, y ∈ x :: l -> R x y /\ R y (List.last l x).
Proof.
  revert x. induction l as [|z l IH]; intros x Hs y Hy.
  - apply list_elem_of_singleton in Hy as ->. simpl. split; reflexivity.
  - apply StronglySorted_inv in Hs as [Hs Hx].
    rewrite last_cons. rewrite Forall_forall in Hx.
    apply elem_of_cons in Hy as [->|Hy].
    + split; [reflexivity|]. apply Hx, last_elem.
    + split; [now apply Hx | now apply (IH z Hs y)].
Qed.

#[local] Instance quantity_desc_refl : Reflexive quantity_desc.
Proof. unfold quantity_desc. intros a. lia. Qed.

(** [stats_top] once the date bounds have parsed: the two ends of the
    sorted aggregation, each joined with the item of the store. *)
Lemma stats_top_shape fromisoformat start end_ d lo hi :
  date_range fromisoformat start end_ = inr (lo, hi) ->
  stats_top fromisoformat start end_ (Some d) =
    (inr match merge_sort quantity_desc
                 (map_to_list
                    (group_quantities (List.filter (matches lo hi) (sale d))))
         with
         | [] => {| most_selling := None; least_selling := None |}
         | top :: rest =>
             {| most_selling := Some (build (item d) top);
                least_selling :=
                  Some (build (item d) (List.last (top :: rest) top)) |}
         end,
     Some d).
Proof.
  intros Hr. unfold stats_top, guard_db. rewrite Hr. fold (matches lo hi).
  destruct (merge_sort quantity_desc _) as [|top rest] eqn:Ea; [reflexivity|].
  assert (B : forall e, e ∈ top :: rest ->
            build (filter (fun kv : N * ItemDoc => kv.1 ∈ map fst (top :: rest))
                     (item d)) e = build (item d) e).
  { intros e He. unfold build.
    assert (L : filter (fun kv : N * ItemDoc => kv.1 ∈ map fst (top :: rest))
                  (item d) !! e.1 = item d !! e.1).
    { rewrite map_lookup_filter. destruct (item d !! e.1) as [doc|]; simpl;
        [|reflexivity].
      rewrite option_guard_True; [reflexivity|].
      change (e.1 ∈ fst <$> top :: rest).
      apply list_elem_of_fmap. eauto. }
    now rewrite L. }
  rewrite (B top) by left. rewrite !last_cons.
  rewrite (B (List.last rest top)) by apply last_elem.
  reflexivity.
Qed.

Lemma agg_elem sales e :
  e ∈ merge_sort quantity_desc (map_to_list (group_quantities sales)) <->
  mentions e.1 (concat (map sale_items sales)) = true /\
  e.2 = ordered e.1 (concat (map sale_items sales)).
Proof.
  rewrite merge_sort_Permutation. destruct e as [i q].
  rewrite elem_of_map_to_list, group_quantities_lookup. simpl.
  destruct (mentions i _); split.
  - intros [= <-]. auto.
  - intros [_ ->]. reflexivity.
  - discriminate.
  - intros [? _]. discriminate.
Qed.

(** X15.  [stats_top] adds up, item by item, the quantities of the line
    items of the sales in range.  With no such line item both answers are
    null.  Otherwise both name an item sold in range, each with its
    total, and the total of every item sold in range lies between the
    least-selling and the most-selling total.  The store is not written. *)
Theorem stats_top_extremes fromisoformat start end_ d lo hi :
  date_range fromisoformat start end_ = inr (lo, hi) ->
  exists stats,
    stats_top fromisoformat start end_ (Some d) = (inr stats, Some d) /\
    match most_selling stats, least_selling stats with
    | None, None => matched_lines lo hi d = []
    | Some m, Some l =>
        mentions (top_item_id m) (matched_lines lo hi d) = true /\
        top_quantity m = ordered (top_item_id m) (matched_lines lo hi d) /\
        mentions (top_item_id l) (matched_lines lo hi d) = true /\
        top_quantity l = ordered (top_item_id l) (matched_lines lo hi d) /\
        forall i, mentions i (matched_lines lo hi d) = true ->
          top_quantity l <= ordered i (matched_lines lo hi d)
            <= top_quantity m
    | _, _ => False
    end.
Proof.
  intros Hr. rewrite (stats_top_shape _ _ _ _ _ _ Hr). unfold matched_lines.
  set (sales := List.filter (matches lo hi) (sale d)).
  eexists. split; [reflexivity|].
  destruct (merge_sort quantity_desc _) as [|top rest] eqn:Ea.
  - simpl. apply mentions_nil_iff. intros i.
    destruct (mentions i _) eqn:Em; [|reflexivity]. exfalso.
    assert (H : (i, ordered i (concat (map sale_items sales))) ∈
                merge_sort quantity_desc (map_to_list (group_quantities sales)))
      by (apply agg_elem; auto).
    rewrite Ea in H. inversion H.
  - cbn [most_selling least_selling build top_item_id top_quantity].
    assert (Hs : StronglySorted quantity_desc (top :: rest)).
    { rewrite <- Ea. apply StronglySorted_merge_sort; apply _. }
    assert (Ht : top ∈ merge_sort quantity_desc
                         (map_to_list (group_quantities sales)))
      by (rewrite Ea; left).
    assert (Hb : List.last (top :: rest) top ∈
                 merge_sort quantity_desc
                   (map_to_list (group_quantities sales)))
      by (rewrite Ea, last_cons; apply last_elem).
    apply agg_elem in Ht as [Ht1 Ht2]. apply agg_elem in Hb as [Hb1 Hb2].
    split; [exact Ht1|]. split; [exact Ht2|].
    split; [exact Hb1|]. split; [exact Hb2|].
    intros i Hi.
    assert (H : (i, ordered i (concat (map sale_items sales))) ∈ top :: rest).
    { rewrite <- Ea. apply agg_elem. auto. }
    destruct (sorted_head_last quantity_desc top rest Hs _ H) as [H1 H2].
    unfold quantity_desc in H1, H2. simpl in H1, H2.
    rewrite last_cons. lia.
Qed.

Lemma stats_top_extremes_witness :
  exists stats,
    stats_top fromisoformat_date None None (Some sample_sold_db)
      = (inr stats, Some sample_sold_db) /\
    match most_selling stats, least_selling stats with
    | None, None => matched_lines None None sample_sold_db = []
    | Some m, Some l =>
        mentions (top_item_id m) (matched_lines None None sample_sold_db)
          = true /\
        top_quantity m =
          ordered (top_item_id m) (matched_lines None None sample_sold_db) /\
        mentions (top_item_id l) (matched_lines None None sample_sold_db)
          = true /\
        top_quantity l =
          ordered (top_item_id l) (matched_lines None None sample_sold_db) /\
        forall i, mentions i (matched_lines None None sample_sold_db) = true ->
          top_quantity l <= ordered i (matched_lines None None sample_sold_db)
            <= top_quantity m
    | _, _ => False
    end.
Proof.
  exact (stats_top_extremes fromisoformat_date None None sample_sold_db
           None None eq_refl).
Defined.

(** X16.  Each answer of [stats_top] reports the name, price and
    category that its item has in the store now, not those recorded in
    the sales; for an item that has since been deleted the name and
    category are null and the price is 0. *)
Theorem stats_top_details fromisoformat start end_ d lo hi stats e :
  date_range fromisoformat start end_ = inr (lo, hi) ->
  stats_top fromisoformat start end_ (Some d) = (inr stats, Some d) ->
  most_selling stats = Some e \/ least_selling stats = Some e ->
  top_name e = item_name <$> item d !! top_item_id e /\
  top_price e = default 0%Q (item_price <$> item d !! top_item_id e) /\
  top_category e = item d !! top_item_id e ≫= item_category /\
  (item d !! top_item_id e = None ->
   top_name e = None /\ top_price e = 0%Q /\ top_category e = None).
Proof.
  intros Hr. rewrite (stats_top_shape _ _ _ _ _ _ Hr).
  destruct (merge_sort quantity_desc _) as [|top rest]; intros [= <-]; simpl.
  - intros [H|H]; discriminate H.
  - assert (G : forall x, build (item d) x = e ->
              top_name e = item_name <$> item d !! top_item_id e /\
              top_price e = default 0%Q (item_price <$> item d !! top_item_id e) /\
              top_category e = item d !! top_item_id e ≫= item_category /\
              (item d !! top_item_id e = None ->
               top_name e = None /\ top_price e = 0%Q /\ top_category e = None)).
    { intros x <-. unfold build. simpl.
      do 3 (split; [reflexivity|]). intros ->. auto. }
    intros [[= H]|[= H]]; eapply G, H.
Qed.

Lemma stats_top_details_witness :
  exists stats e,
    stats_top fromisoformat_date None None (Some sample_sold_db)
      = (inr stats, Some sample_sold_db) /\
    least_selling stats = Some e /\
    top_item_id e = 4%N /\ top_quantity e = 1 /\
    top_name e = None /\ top_price e = 0%Q /\ top_category e = None.
Proof.
  eexists _, _. split; [reflexivity|]. split; [reflexivity|].
  split; [reflexivity|]. split; [reflexivity|].
  refine (proj2 (proj2 (proj2
    (stats_top_details fromisoformat_date None None sample_sold_db None None
       _ _ eq_refl eq_refl (or_intror eq_refl)))) eq_refl).
Defined.


